(** * pelicanconf: the site configuration and its routing templates

    A shallow embedding of [pelicanconf.py], the settings module of a
    Pelican site.  The module is a sequence of top-level assignments of
    literals; the embedding keeps every setting under its own name and
    also collects the names the statements of the file bind, so that
    "the configuration defines X" is a lookup.

    The templates of the configuration are Python format strings
    ([str.format]); the embedding gives the part of [str.format] the
    templates rely on: literal text, the doubled-brace escapes and
    named replacement fields. *)

From Stdlib Require Import ZArith Lia Ascii String List Bool.
From Stdlib Require Import DecimalString DecimalZ DecimalPos.
From stdpp Require Import base option strings gmap.

Set Warnings "-register-all".

Local Open Scope string_scope.
Local Open Scope Z_scope.

(** ** Python values *)

Module Py.

(** The literals the module uses.  A dict is given by its items;
    [VOpaque] stands for an object bound by an import. *)
Inductive value : Type :=
  | VNone
  | VInt (z : Z)
  | VStr (s : string)
  | VList (items : list value)
  | VTuple (items : list value)
  | VDict (items : list (string * value))
  | VOpaque (qualname : string).

(** [str(n)] for an [int]. *)
Definition str_of_int (z : Z) : string :=
  NilZero.string_of_int (Z.to_int z).

(** [bool(v)]: the truth value the engine tests a setting with. *)
Definition truthy (v : value) : bool :=
  match v with
  | VNone => false
  | VInt z => negb (z =? 0)
  | VStr s => negb (String.eqb s "")
  | VList l | VTuple l => match l with [] => false | _ => true end
  | VDict l => match l with [] => false | _ => true end
  | VOpaque _ => true
  end.

(** [format(v, '')], the text a replacement field inserts, for the
    values whose text needs no [repr]: a string is itself, an integer is
    its decimal, [None] is the word.  Python formats every other object
    too, each to some text; [format_by] below is the form to state what
    holds whatever that text is. *)
Definition render (v : value) : option string :=
  match v with
  | VStr s => Some s
  | VInt z => Some (str_of_int z)
  | VNone => Some "None"
  | _ => None
  end.

(** [s.startswith(p)] and [s.endswith(p)]. *)
Fixpoint startswith (s p : string) : bool :=
  match p, s with
  | EmptyString, _ => true
  | String c p', String d s' => Ascii.eqb c d && startswith s' p'
  | String _ _, EmptyString => false
  end.

Fixpoint endswith (s p : string) : bool :=
  String.eqb s p ||
  match s with
  | EmptyString => false
  | String _ s' => endswith s' p
  end.

(** [p in s] for strings. *)
Fixpoint contains (s p : string) : bool :=
  startswith s p ||
  match s with
  | EmptyString => false
  | String _ s' => contains s' p
  end.

(** [c in s] for a single character. *)
Fixpoint has_char (c : ascii) (s : string) : bool :=
  match s with
  | EmptyString => false
  | String d s' => Ascii.eqb c d || has_char c s'
  end.

(** [s.split(sep)] for a one-character separator: never empty, and an
    empty field between (or around) adjacent separators. *)
Fixpoint split (sep : ascii) (s : string) : list string :=
  match s with
  | EmptyString => [EmptyString]
  | String c s' =>
      if Ascii.eqb c sep then EmptyString :: split sep s'
      else match split sep s' with
           | [] => [String c EmptyString]
           | w :: ws => String c w :: ws
           end
  end.

(** *** [str.format]

    A format string is parsed into literal characters and named fields.
    [{{] and [}}] are the escapes for braces; a single [}] outside a
    field and a field left open raise [ValueError].  Conversions,
    format specs, attribute and index access ([!], [:], [.], [[]) and
    positional fields do not occur in the configuration: the parser
    reports them as [Unsupported] rather than guessing.  The template
    is parsed as a whole before any field is looked up, which for a
    well-formed template is what Python does. *)

Inductive error : Type :=
  | ValueError
  | KeyError (name : string)
  | Unsupported.

Inductive result (A : Type) : Type :=
  | Ok (a : A)
  | Raise (e : error).
Arguments Ok {A} a.
Arguments Raise {A} e.

Definition bind {A B} (r : result A) (k : A -> result B) : result B :=
  match r with
  | Ok a => k a
  | Raise e => Raise e
  end.

Inductive piece : Type :=
  | Lit (c : ascii)
  | Field (name : string).

Definition plain_name_char (c : ascii) : bool :=
  negb (Ascii.eqb c "!" || Ascii.eqb c ":" || Ascii.eqb c "."
        || Ascii.eqb c "[" || Ascii.eqb c "]" || Ascii.eqb c "{").

(** [parse_from field s]: [field = None] outside a replacement field,
    [field = Some acc] inside one, [acc] being the name read so far in
    reverse. *)
Fixpoint parse_from (field : option string) (s : string) : result (list piece) :=
  match field, s with
  | None, EmptyString => Ok []
  | None, String "{" (String "{" r) =>
      bind (parse_from None r) (fun ps => Ok (Lit "{" :: ps))
  | None, String "}" (String "}" r) =>
      bind (parse_from None r) (fun ps => Ok (Lit "}" :: ps))
  | None, String "{" r => parse_from (Some EmptyString) r
  | None, String "}" _ => Raise ValueError
  | None, String c r =>
      bind (parse_from None r) (fun ps => Ok (Lit c :: ps))
  | Some _, EmptyString => Raise ValueError
  | Some acc, String "}" r =>
      match acc with
      | EmptyString => Raise Unsupported
      | _ => bind (parse_from None r)
               (fun ps => Ok (Field (String.rev acc) :: ps))
      end
  | Some acc, String c r =>
      if plain_name_char c then parse_from (Some (String c acc)) r
      else Raise Unsupported
  end.

Definition parse (template : string) : result (list piece) :=
  parse_from None template.

(** The keyword arguments of a [format] call, first binding first. *)
Definition kwargs := list (string * value).

Fixpoint kwarg (name : string) (md : kwargs) : option value :=
  match md with
  | [] => None
  | (k, v) :: md' => if String.eqb k name then Some v else kwarg name md'
  end.

Fixpoint substitute (md : kwargs) (ps : list piece) : result string :=
  match ps with
  | [] => Ok EmptyString
  | Lit c :: ps' => bind (substitute md ps') (fun out => Ok (String c out))
  | Field name :: ps' =>
      match kwarg name md with
      | None => Raise (KeyError name)
      | Some v =>
          match render v with
          | None => Raise Unsupported
          | Some text =>
              bind (substitute md ps') (fun out => Ok (text +:+ out))
          end
      end
  end.

(** [template.format] applied to the keyword arguments [md]. *)
Definition format (template : string) (md : kwargs) : result string :=
  bind (parse template) (substitute md).

(** The text [md] gives the field [name]. *)
Definition field_text (md : kwargs) (name : string) : result string :=
  match kwarg name md with
  | None => Raise (KeyError name)
  | Some v =>
      match render v with
      | None => Raise Unsupported
      | Some text => Ok text
      end
  end.

(** Formatting with the text of each field given outright: [text_of]
    stands for the keyword arguments and for whatever objects they
    hold, each object being no more to [str.format] than the text it
    formats to. *)
Fixpoint substitute_by (text_of : string -> result string) (ps : list piece)
    : result string :=
  match ps with
  | [] => Ok EmptyString
  | Lit c :: ps' =>
      bind (substitute_by text_of ps') (fun out => Ok (String c out))
  | Field name :: ps' =>
      bind (text_of name) (fun text =>
      bind (substitute_by text_of ps') (fun out => Ok (text +:+ out)))
  end.

Definition format_by (text_of : string -> result string) (template : string)
    : result string :=
  bind (parse template) (substitute_by text_of).

(** The names of the replacement fields of a template, in order. *)
Fixpoint field_names (ps : list piece) : list string :=
  match ps with
  | [] => []
  | Lit _ :: ps' => field_names ps'
  | Field name :: ps' => name :: field_names ps'
  end.

Definition placeholders (template : string) : list string :=
  match parse template with
  | Ok ps => field_names ps
  | Raise _ => []
  end.

End Py.

(** ** Paths below the output root *)

Module Path.

Import Py.

(** [os.path.isabs] on POSIX. *)
Definition isabs (p : string) : bool := startswith p "/".

(** Walking the components of a path from the output root, [depth]
    directories below it.  Empty components and [.] stay in place, [..]
    goes up and fails at the root, any other name goes down. *)
Fixpoint walk (components : list string) (depth : nat) : option nat :=
  match components with
  | [] => Some depth
  | c :: cs =>
      if String.eqb c "" || String.eqb c "." then walk cs depth
      else if String.eqb c ".." then
        match depth with
        | O => None
        | S d => walk cs d
        end
      else walk cs (S depth)
  end.

Definition stays_inside (p : string) : bool :=
  match walk (split "/" p) 0 with
  | Some _ => true
  | None => false
  end.

(** The components that are left of a path once empty ones and [.] are
    dropped and each [..] has taken back the name before it, as
    [os.path.normpath] leaves them; [None] when the path goes above its
    start.  [stack] holds the names kept so far, last first. *)
Fixpoint resolve (components stack : list string) : option (list string) :=
  match components with
  | [] => Some (rev stack)
  | c :: cs =>
      if String.eqb c "" || String.eqb c "." then resolve cs stack
      else if String.eqb c ".." then
        match stack with
        | [] => None
        | _ :: stack' => resolve cs stack'
        end
      else resolve cs (c :: stack)
  end.

Definition normal (p : string) : option (list string) :=
  resolve (split "/" p) [].

(** A relative path that names a place under the output root. *)
Definition valid_relative (p : string) : bool :=
  negb (isabs p) && stays_inside p.

(** A value that is one path component: not empty, no separator, and
    not the parent directory. *)
Definition component (t : string) : bool :=
  negb (String.eqb t "") && negb (has_char "/" t) && negb (String.eqb t "..").

(** [q] is the path [p] or lies under the directory [p]. *)
Definition under (p q : string) : bool :=
  String.eqb q p || startswith q (p +:+ "/").

End Path.

(** ** Named groups of a regular expression *)

Module Re.

(** The group names of a pattern, as [re.compile(p).groupindex] lists
    them: every [(?P<name>] that is not escaped, in order.
    [name = Some acc] while a name is being read, [acc] in reverse. *)
Fixpoint groups_from (name : option string) (s : string) : list string :=
  match name, s with
  | _, EmptyString => []
  | None, String "\" (String _ r) => groups_from None r
  | None, String "(" (String "?" (String "P" (String "<" r))) =>
      groups_from (Some EmptyString) r
  | None, String _ r => groups_from None r
  | Some acc, String ">" r => String.rev acc :: groups_from None r
  | Some acc, String c r => groups_from (Some (String c acc)) r
  end.

Definition groupindex (pattern : string) : list string :=
  groups_from None pattern.

(** *** Matching

    The part of Python's [re] the pattern of the configuration is
    written in: literal characters, [\d], [.], the quantifiers [{n}] and
    [*] on a single character, and named groups.  Anything else is
    reported as unsupported.  Strings are byte strings. *)

Import Py.

Inductive atom : Type :=
  | Chr (c : ascii)
  | Digit
  | Dot.

Inductive node : Type :=
  | One (a : atom)
  | Times (a : atom) (n : nat)
  | Many (a : atom)
  | Named (name : string) (body : list node).

(** The ASCII digits.  A [str] pattern of Python 3 has [\d] take the
    other Unicode decimal digits as well; a text of ASCII characters
    has none of those, and the statements about texts that do not match
    are made of such texts. *)
Definition is_digit (c : ascii) : bool :=
  (48 <=? nat_of_ascii c)%nat && (nat_of_ascii c <=? 57)%nat.

Definition is_ascii (c : ascii) : bool := (nat_of_ascii c <? 128)%nat.

Definition newline : ascii := ascii_of_nat 10.

Definition accepts (a : atom) (c : ascii) : bool :=
  match a with
  | Chr d => Ascii.eqb d c
  | Digit => is_digit c
  | Dot => negb (Ascii.eqb c newline)
  end.

(** The characters with a meaning of their own in a pattern. *)
Definition special (c : ascii) : bool :=
  has_char c "[]+?|^$(){}*.\".

(** Where the compiler is: in the pattern proper, in the name of a
    group (read so far, in reverse), or in the count of [{n}]. *)
Inductive mode : Type :=
  | Normal
  | Name (acc : string)
  | Count (n : option nat).

(** A quantifier applies to the single character before it. *)
Definition quantify (q : atom -> node) (cur : list node) : option (list node) :=
  match cur with
  | One a :: cur' => Some (q a :: cur')
  | _ => None
  end.

(** [stack] holds the groups that are open, each with its name and the
    nodes read before it; [cur] the nodes of the innermost group, last
    first. *)
Fixpoint compile_from (m : mode) (stack : list (string * list node))
    (cur : list node) (s : string) : option (list node) :=
  match m, s with
  | Normal, EmptyString =>
      match stack with
      | [] => Some (rev cur)
      | _ => None
      end
  | Normal, String "(" (String "?" (String "P" (String "<" r))) =>
      compile_from (Name EmptyString) stack cur r
  | Normal, String ")" r =>
      match stack with
      | (name, parent) :: stack' =>
          compile_from Normal stack' (Named name (rev cur) :: parent) r
      | [] => None
      end
  | Normal, String "\" (String c r) =>
      if Ascii.eqb c "d" then compile_from Normal stack (One Digit :: cur) r
      else if special c then compile_from Normal stack (One (Chr c) :: cur) r
      else None
  | Normal, String "." r => compile_from Normal stack (One Dot :: cur) r
  | Normal, String "*" r =>
      match quantify Many cur with
      | Some cur' => compile_from Normal stack cur' r
      | None => None
      end
  | Normal, String "{" r => compile_from (Count None) stack cur r
  | Normal, String c r =>
      if special c then None
      else compile_from Normal stack (One (Chr c) :: cur) r
  | Name _, EmptyString => None
  | Name acc, String ">" r =>
      match acc with
      | EmptyString => None
      | _ => compile_from Normal ((String.rev acc, cur) :: stack) [] r
      end
  | Name acc, String c r => compile_from (Name (String c acc)) stack cur r
  | Count _, EmptyString => None
  | Count (Some n), String "}" r =>
      match quantify (fun a => Times a n) cur with
      | Some cur' => compile_from Normal stack cur' r
      | None => None
      end
  | Count None, String "}" _ => None
  | Count n, String c r =>
      if is_digit c
      then compile_from
             (Count (Some (default 0 n * 10 + (nat_of_ascii c - 48)))%nat)
             stack cur r
      else None
  end.

Definition compile (pattern : string) : option (list node) :=
  compile_from Normal [] [] pattern.

(** The matcher backtracks through continuations: [k] is given the text
    matched, the text left and the groups captured, and answers with
    the groups of the whole match, or [None] to have another way
    tried. *)
Definition cont : Type :=
  string -> string -> gmap string string -> option (gmap string string).

Definition one (a : atom) (s : string)
    (k : string -> string -> option (gmap string string)) :
    option (gmap string string) :=
  match s with
  | String c s' => if accepts a c then k (String c EmptyString) s' else None
  | EmptyString => None
  end.

Fixpoint times (a : atom) (n : nat) (s : string)
    (k : string -> string -> option (gmap string string)) :
    option (gmap string string) :=
  match n with
  | O => k EmptyString s
  | S n' =>
      match s with
      | String c s' =>
          if accepts a c then times a n' s' (fun m r => k (String c m) r)
          else None
      | EmptyString => None
      end
  end.

(** [*] is greedy: the longest run first, then shorter ones. *)
Fixpoint many (a : atom) (s : string)
    (k : string -> string -> option (gmap string string)) :
    option (gmap string string) :=
  match s with
  | String c s' =>
      if accepts a c
      then match many a s' (fun m r => k (String c m) r) with
           | Some caps => Some caps
           | None => k EmptyString s
           end
      else k EmptyString s
  | EmptyString => k EmptyString s
  end.

Fixpoint match_node (n : node) (s : string) (caps : gmap string string)
    (k : cont) {struct n} : option (gmap string string) :=
  match n with
  | One a => one a s (fun m r => k m r caps)
  | Times a n => times a n s (fun m r => k m r caps)
  | Many a => many a s (fun m r => k m r caps)
  | Named name body =>
      (fix go (ns : list node) (s : string) (caps : gmap string string)
           (k : cont) {struct ns} :=
         match ns with
         | [] => k EmptyString s caps
         | n' :: ns' =>
             match_node n' s caps
               (fun m r caps' => go ns' r caps' (fun m' => k (m +:+ m')))
         end) body s caps (fun m r caps' => k m r (<[name := m]> caps'))
  end.

Fixpoint match_nodes (ns : list node) (s : string) (caps : gmap string string)
    (k : cont) : option (gmap string string) :=
  match ns with
  | [] => k EmptyString s caps
  | n :: ns' =>
      match_node n s caps
        (fun m r caps' => match_nodes ns' r caps' (fun m' => k (m +:+ m')))
  end.

(** [re.match(pattern, s)] and the [groupdict()] of the match: the
    pattern is matched at the start of [s] and need not reach its end. *)
Definition groupdict (pattern s : string) : result (option (gmap string string)) :=
  match compile pattern with
  | None => Raise Unsupported
  | Some ns => Ok (match_nodes ns s ∅ (fun _ _ caps => Some caps))
  end.

(** The names of the groups of a compiled pattern, in order. *)
Fixpoint names (n : node) : list string :=
  match n with
  | Named name body =>
      name :: (fix go (ns : list node) : list string :=
                 match ns with
                 | [] => []
                 | n' :: ns' => (names n' ++ go ns')%list
                 end) body
  | _ => []
  end.

(** A date as the pattern of the configuration reads it: [dddd-dd-dd]. *)
Definition is_date (d : string) : bool :=
  match d with
  | String y1 (String y2 (String y3 (String y4 (String h1
      (String m1 (String m2 (String h2 (String d1 (String d2 EmptyString))))))))) =>
      is_digit y1 && is_digit y2 && is_digit y3 && is_digit y4 &&
      Ascii.eqb h1 "-" && is_digit m1 && is_digit m2 &&
      Ascii.eqb h2 "-" && is_digit d1 && is_digit d2
  | _ => false
  end.

Fixpoint all_chars (f : ascii -> bool) (s : string) : bool :=
  match s with
  | EmptyString => true
  | String c s' => f c && all_chars f s'
  end.

(** The text starts with a date and a hyphen. *)
Definition dated (s : string) : bool :=
  is_date (String.substring 0 10 s) &&
  match String.get 10 s with
  | Some c => Ascii.eqb c "-"
  | None => false
  end.

End Re.

(** ** The settings of [pelicanconf.py] *)

Module Conf.

Import Py.

Definition AUTHOR : string := "Faisal Khan".
Definition SITENAME : string := "Faisal's Notes".
Definition TAGLINE : string := "Data | Code | Visualization".
Definition SITEURL : string := "http://faisalnotes.com".
Definition PATH : string := "content".

Definition TIMEZONE : string := "America/Chicago".

Definition DEFAULT_LANG : string := "en".

(** Not a raw string in the source; [\d] is no escape sequence of
    Python, so the backslashes stay in the value. *)
Definition FILENAME_METADATA : string :=
  "(?P<date>\d{4}-\d{2}-\d{2})-(?P<slug>.*)".

(** Feed settings: [None] or the feed's path. *)
Definition FEED_ALL_ATOM : option string := None.
Definition CATEGORY_FEED_ATOM : option string := None.
Definition TRANSLATION_FEED_ATOM : option string := None.
Definition AUTHOR_FEED_ATOM : option string := None.
Definition AUTHOR_FEED_RSS : option string := None.

Definition THEME : string := "themes/pure-tech".

Definition STATIC_PATHS : list string :=
  [ "images";
    "extra/CNAME" ].

Definition EXTRA_PATH_METADATA : gmap string (gmap string string) :=
  {[ "images/favicon.png" := {[ "path" := "favicon.png" ]};
     "extra/CNAME" := {[ "path" := "CNAME" ]} ]}.

Definition DATE_FORMATS : gmap string string :=
  {[ "en" := "%Y-%m-%d" ]}.

Definition SITESUBTITLES : list string := [ "Faisal's Notes"; "" ].

Definition LINKS : list Py.value := [].

Definition SOCIAL : list Py.value := [].

Definition DEFAULT_PAGINATION : Z := 5.

(** One row of [PAGINATION_PATTERNS]: the page index of the rule, the
    URL template and the save-path template. *)
Record pattern : Type := Pattern {
  page_index : Z;
  URL : string;
  SAVE_AS : string
}.

Definition PAGINATION_PATTERNS : list pattern :=
  [ Pattern 1 "{base_name}/" "{base_name}/index.html";
    Pattern 2 "{base_name}/page/{number}/" "{base_name}/page/{number}/index.html" ].

Definition PLUGIN_PATHS : list string := [ "pelican-plugins"; "plugins" ].

Definition DIRECT_TEMPLATES : list string := [ "index"; "archives" ].
Definition ARCHIVES_SAVE_AS : string := "archives/index.html".
Definition ARTICLE_URL : string := "{slug}/".
Definition ARTICLE_SAVE_AS : string := "{slug}/index.html".
Definition PAGE_URL : string := "{slug}/".
Definition PAGE_SAVE_AS : string := "{slug}/index.html".
Definition TAG_URL : string := "tag/{slug}/".
Definition TAG_SAVE_AS : string := "tag/{slug}/index.html".
Definition TAGS_SAVE_AS : string := "".
Definition AUTHOR_URL : string := "".
Definition AUTHOR_SAVE_AS : string := "".
Definition CATEGORY_URL : string := "".
Definition CATEGORY_SAVE_AS : string := "".

(** *** The names the file binds *)

Definition of_feed (f : option string) : value :=
  match f with
  | None => VNone
  | Some s => VStr s
  end.

Definition of_dict {A} (f : A -> value) (m : gmap string A) : value :=
  VDict (map_to_list (f <$> m)).

Definition of_pattern (p : pattern) : value :=
  VTuple [ VInt (page_index p); VStr (URL p); VStr (SAVE_AS p) ].

(** Every name a statement of the file binds, in source order: the two
    imports, then the assignments.  The names the import system gives
    every module ([__name__], [__file__] and the like) are no part of
    the file and are left out. *)
Definition bindings : list (string * value) :=
  [ ("unicode_literals", VOpaque "__future__.unicode_literals");
    ("op", VOpaque "os.path");
    ("AUTHOR", VStr AUTHOR);
    ("SITENAME", VStr SITENAME);
    ("TAGLINE", VStr TAGLINE);
    ("SITEURL", VStr SITEURL);
    ("PATH", VStr PATH);
    ("TIMEZONE", VStr TIMEZONE);
    ("DEFAULT_LANG", VStr DEFAULT_LANG);
    ("FILENAME_METADATA", VStr FILENAME_METADATA);
    ("FEED_ALL_ATOM", of_feed FEED_ALL_ATOM);
    ("CATEGORY_FEED_ATOM", of_feed CATEGORY_FEED_ATOM);
    ("TRANSLATION_FEED_ATOM", of_feed TRANSLATION_FEED_ATOM);
    ("AUTHOR_FEED_ATOM", of_feed AUTHOR_FEED_ATOM);
    ("AUTHOR_FEED_RSS", of_feed AUTHOR_FEED_RSS);
    ("THEME", VStr THEME);
    ("STATIC_PATHS", VList (VStr <$> STATIC_PATHS));
    ("EXTRA_PATH_METADATA", of_dict (of_dict VStr) EXTRA_PATH_METADATA);
    ("DATE_FORMATS", of_dict VStr DATE_FORMATS);
    ("SITESUBTITLES", VTuple (VStr <$> SITESUBTITLES));
    ("LINKS", VTuple LINKS);
    ("SOCIAL", VTuple SOCIAL);
    ("DEFAULT_PAGINATION", VInt DEFAULT_PAGINATION);
    ("PAGINATION_PATTERNS", VTuple (of_pattern <$> PAGINATION_PATTERNS));
    ("PLUGIN_PATHS", VList (VStr <$> PLUGIN_PATHS));
    ("DIRECT_TEMPLATES", VTuple (VStr <$> DIRECT_TEMPLATES));
    ("ARCHIVES_SAVE_AS", VStr ARCHIVES_SAVE_AS);
    ("ARTICLE_URL", VStr ARTICLE_URL);
    ("ARTICLE_SAVE_AS", VStr ARTICLE_SAVE_AS);
    ("PAGE_URL", VStr PAGE_URL);
    ("PAGE_SAVE_AS", VStr PAGE_SAVE_AS);
    ("TAG_URL", VStr TAG_URL);
    ("TAG_SAVE_AS", VStr TAG_SAVE_AS);
    ("TAGS_SAVE_AS", VStr TAGS_SAVE_AS);
    ("AUTHOR_URL", VStr AUTHOR_URL);
    ("AUTHOR_SAVE_AS", VStr AUTHOR_SAVE_AS);
    ("CATEGORY_URL", VStr CATEGORY_URL);
    ("CATEGORY_SAVE_AS", VStr CATEGORY_SAVE_AS) ].

(** Running the file: each statement binds (or rebinds) its name.
    [namespace] is what the file adds to the namespace of the module. *)
Definition assign (ns : gmap string value) (b : string * value) : gmap string value :=
  <[ b.1 := b.2 ]> ns.

Definition namespace : gmap string value :=
  foldl assign ∅ bindings.

(** A setting is defined when the file binds its name. *)
Definition defined (name : string) : bool :=
  bool_decide (is_Some (namespace !! name)).

(** The string a setting holds, when it holds one. *)
Definition template (name : string) : option string :=
  match namespace !! name with
  | Some (VStr s) => Some s
  | _ => None
  end.

(** *** Content kinds and their routing settings

    The settings of a kind are named [<KIND>_URL] and [<KIND>_SAVE_AS];
    the archive index goes by [ARCHIVES]. *)
Inductive kind : Type :=
  | Article | Page | Tag | Author | Category | ArchiveIndex.

Definition kinds : list kind :=
  [ Article; Page; Tag; Author; Category; ArchiveIndex ].

Definition prefix_of (k : kind) : string :=
  match k with
  | Article => "ARTICLE"
  | Page => "PAGE"
  | Tag => "TAG"
  | Author => "AUTHOR"
  | Category => "CATEGORY"
  | ArchiveIndex => "ARCHIVES"
  end.

Definition url_setting (k : kind) : string := prefix_of k +:+ "_URL".
Definition save_as_setting (k : kind) : string := prefix_of k +:+ "_SAVE_AS".

Definition url_template (k : kind) : option string := template (url_setting k).
Definition save_as_template (k : kind) : option string := template (save_as_setting k).

(** The kinds with a URL template and a save-path template. *)
Definition has_both (k : kind) : bool :=
  defined (url_setting k) && defined (save_as_setting k).

(** The names the module binds that end in a given suffix. *)
Definition settings_ending (suffix : string) : list string :=
  filter (fun name => endswith name suffix = true) bindings.*1.

(** The URL and save-path templates of a kind that has both. *)
Definition kind_pair (k : kind) : option (string * string) :=
  match url_template k, save_as_template k with
  | Some u, Some s => Some (u, s)
  | _, _ => None
  end.

(** The feed settings. *)
Definition feed_settings : list string :=
  [ "FEED_ALL_ATOM"; "CATEGORY_FEED_ATOM"; "TRANSLATION_FEED_ATOM";
    "AUTHOR_FEED_ATOM"; "AUTHOR_FEED_RSS" ].

(** *** Static files *)

(** A static file is copied when a [STATIC_PATHS] entry is the file or a
    directory above it. *)
Definition copied (file : string) : bool :=
  existsb (fun p => Path.under p file) STATIC_PATHS.

(** The output paths the rename rules of [EXTRA_PATH_METADATA] give. *)
Definition rename_targets : list string :=
  omap (fun rule : string * gmap string string => rule.2 !! "path")
       (map_to_list EXTRA_PATH_METADATA).

(** *** Pagination *)

(** The metadata a pagination template is formatted with. *)
Definition page_metadata (base_name : string) (number : Z) : kwargs :=
  [ ("base_name", VStr base_name); ("number", VInt number) ].

(** The routing template pairs of the configuration: those of the
    kinds, then those of the pagination rows. *)
Definition routing_pairs : list (string * string) :=
  omap kind_pair kinds ++ ((fun p => (URL p, SAVE_AS p)) <$> PAGINATION_PATTERNS).

(** Modelled from the spec: the engine's choice of the pagination row
    for a page, which the settings module does not contain.  The spec
    reads the row of page index 1 as the rule "page index == 1" and the
    row of page index 2 as the rule "page index >= 2", and has the
    first row whose rule holds win. *)
Definition rule_holds (p : pattern) (number : Z) : bool :=
  if page_index p =? 1 then number =? 1 else page_index p <=? number.

Definition select (number : Z) : option pattern :=
  snd <$> list_find (fun p => rule_holds p number = true) PAGINATION_PATTERNS.

(** Another reading of the table, for comparison: the page index of a
    row is the least page the row applies to, and of the rows that
    apply the last one is taken. *)
Definition applies_from (p : pattern) (number : Z) : bool :=
  page_index p <=? number.

Definition select_last (number : Z) : option pattern :=
  last (filter (fun p => applies_from p number = true) PAGINATION_PATTERNS).

(** Every save-path template of the configuration: the settings whose
    name ends in [_SAVE_AS], then those of the pagination rows. *)
Definition save_template_of (b : string * value) : option string :=
  if endswith b.1 "_SAVE_AS"
  then match b.2 with
       | VStr t => Some t
       | _ => None
       end
  else None.

Definition save_templates : list string :=
  omap save_template_of bindings ++ (SAVE_AS <$> PAGINATION_PATTERNS).

(** The metadata the groups of a file name give. *)
Definition metadata_of (caps : gmap string string) : kwargs :=
  (fun kv : string * string => (kv.1, VStr kv.2)) <$> map_to_list caps.

End Conf.

(** Metadata every value of which is text that is one path component. *)
Definition safe_metadata (md : Py.kwargs) : Prop :=
  forall name v, Py.kwarg name md = Some v ->
    exists t, Py.render v = Some t /\ Path.component t = true.

(** The metadata gives every placeholder of the template a text. *)
Definition binds (md : Py.kwargs) (template : string) : Prop :=
  forall name, name ∈ Py.placeholders template ->
    exists text, Py.field_text md name = Py.Ok text.

(** The metadata gives every placeholder of the template a text that is
    one path component; what else it binds is of no account. *)
Definition binds_components (md : Py.kwargs) (template : string) : Prop :=
  forall name, name ∈ Py.placeholders template ->
    exists text, Py.field_text md name = Py.Ok text /\
                 Path.component text = true.

(** What formatting a save-path template must come to: a valid relative
    path, or the [KeyError] of a name the metadata does not bind. *)
Definition lands_inside (md : Py.kwargs) (r : Py.result string) : Prop :=
  match r with
  | Py.Ok path => Path.valid_relative path = true
  | Py.Raise (Py.KeyError name) => Py.kwarg name md = None
  | Py.Raise _ => False
  end.

(** The save path that goes with a URL: [index.html] inside a directory
    URL, the URL itself otherwise. *)
Definition save_path_of_url (url : string) : string :=
  if Py.endswith url "/" then url +:+ "index.html" else url.

(** Two templates are dual on [md] when they format to a URL and its
    save path, or raise the same error. *)
Definition dual_on (md : Py.kwargs) (url_t save_t : string) : Prop :=
  match Py.format url_t md, Py.format save_t md with
  | Py.Ok url, Py.Ok path => path = save_path_of_url url
  | Py.Raise e, Py.Raise e' => e = e'
  | _, _ => False
  end.

(** Two formatted paths, the first of which carries the page number and
    differs from the second. *)
Definition numbered_apart (number : Z) (r r1 : Py.result string) : Prop :=
  match r, r1 with
  | Py.Ok path, Py.Ok path1 =>
      Py.contains path (Py.str_of_int number) = true /\ path <> path1
  | _, _ => False
  end.

(** ** Facts about strings *)

Section StringFacts.

Import Py.

Lemma string_eqb_refl (s : string) : String.eqb s s = true.
Proof. apply String.eqb_refl. Qed.

Lemma startswith_app (p r : string) : startswith (p +:+ r) p = true.
Proof.
  induction p as [|c p IH]; simpl.
  - destruct r; reflexivity.
  - rewrite Ascii.eqb_refl. exact IH.
Qed.

Lemma endswith_refl (p : string) : endswith p p = true.
Proof. destruct p; simpl; rewrite ?Ascii.eqb_refl, ?string_eqb_refl; reflexivity. Qed.

Lemma endswith_app (s p : string) : endswith (s +:+ p) p = true.
Proof.
  induction s as [|c s IH].
  - apply endswith_refl.
  - change (String c s +:+ p) with (String c (s +:+ p)).
    cbn [endswith]. rewrite IH. apply orb_true_r.
Qed.

Lemma endswith_cons (c : ascii) (s p : string) :
  endswith s p = true -> endswith (String c s) p = true.
Proof. intros H. cbn [endswith]. rewrite H. apply orb_true_r. Qed.

Lemma contains_prefix (p r : string) : contains (p +:+ r) p = true.
Proof.
  destruct p as [|c p].
  - destruct r; reflexivity.
  - change (String c p +:+ r) with (String c (p +:+ r)).
    cbn [contains].
    rewrite (startswith_app (String c p) r : startswith (String c (p +:+ r)) (String c p) = true).
    reflexivity.
Qed.

Lemma contains_cons (c : ascii) (s p : string) :
  contains s p = true -> contains (String c s) p = true.
Proof. intros H. cbn [contains]. rewrite H. apply orb_true_r. Qed.

Lemma contains_skip (a s p : string) :
  contains s p = true -> contains (a +:+ s) p = true.
Proof.
  intros H. induction a as [|c a IH].
  - exact H.
  - change (String c a +:+ s) with (String c (a +:+ s)).
    apply contains_cons, IH.
Qed.

Lemma app_cons (c : ascii) (a b : string) :
  String c a +:+ b = String c (a +:+ b).
Proof. reflexivity. Qed.

Lemma app_nil_l (b : string) : "" +:+ b = b.
Proof. reflexivity. Qed.

Lemma app_assoc (a b c : string) : (a +:+ b) +:+ c = a +:+ (b +:+ c).
Proof. induction a as [|x a IH]; rewrite ?app_cons, ?app_nil_l; congruence. Qed.

Lemma app_inv_head (a x y : string) : a +:+ x = a +:+ y -> x = y.
Proof.
  induction a as [|c a IH]; simpl; intros H.
  - exact H.
  - injection H as H. apply IH, H.
Qed.

Lemma split_app (sep : ascii) (a r : string) :
  has_char sep a = false ->
  split sep (a +:+ String sep r) = a :: split sep r.
Proof.
  induction a as [|c a IH]; simpl; intros H.
  - rewrite Ascii.eqb_refl. reflexivity.
  - apply orb_false_iff in H as [Hc Ha].
    rewrite Ascii.eqb_sym, Hc, (IH Ha). reflexivity.
Qed.

Lemma app_char_inv (a b : string) (c : ascii) :
  a +:+ String c "" = b +:+ String c "" -> a = b.
Proof.
  revert b. induction a as [|x a IH]; intros [|y b] H;
    rewrite ?app_cons, ?app_nil_l in H.
  - reflexivity.
  - injection H as _ H. destruct b; discriminate H.
  - injection H as _ H. destruct a; discriminate H.
  - injection H as -> H. f_equal. apply IH, H.
Qed.

End StringFacts.

(** ** Facts about paths *)

Section PathFacts.

Import Py Path.

Lemma component_inv (t : string) :
  component t = true -> t <> "" /\ has_char "/" t = false /\ t <> "..".
Proof.
  unfold component. intros H.
  apply andb_true_iff in H as [H Hdd].
  apply andb_true_iff in H as [Hne Hsep].
  apply negb_true_iff in Hdd, Hne, Hsep.
  repeat split; [ | exact Hsep | ]; intros ->; discriminate.
Qed.

Lemma isabs_component (t r : string) :
  component t = true -> isabs (t +:+ r) = false.
Proof.
  intros H. apply component_inv in H as (Hne & Hsep & _).
  destruct t as [|c t]; [congruence|].
  simpl in Hsep. apply orb_false_iff in Hsep as [Hc _].
  unfold isabs. simpl. rewrite Hc. reflexivity.
Qed.

(** Without a [..] among its components a path never leaves the root. *)
Lemma walk_no_parent (cs : list string) (d : nat) :
  Forall (fun c => c <> "..") cs -> is_Some (walk cs d).
Proof.
  intros H. revert d. induction H as [|c cs Hc _ IH]; intros d; simpl.
  - eexists; reflexivity.
  - destruct (String.eqb c "" || String.eqb c "."); [apply IH|].
    destruct (String.eqb_spec c ".."); [contradiction|apply IH].
Qed.

Lemma stays_inside_no_parent (p : string) :
  Forall (fun c => c <> "..") (split "/" p) -> stays_inside p = true.
Proof.
  intros H. unfold stays_inside.
  destruct (walk_no_parent _ 0%nat H) as [d ->]. reflexivity.
Qed.

End PathFacts.

(** ** Tactics *)

(** Evaluate the parse of every template in the goal. *)
Ltac run_parse :=
  unfold Py.format;
  repeat match goal with
  | |- context [Py.parse ?t] =>
      let r := eval vm_compute in (Py.parse t) in change (Py.parse t) with r
  end;
  cbn [Py.bind Py.substitute].

(** A URL with a final slash is a directory URL. *)
Ltac directory_url :=
  match goal with
  | |- context [Py.endswith ?u "/"] =>
      replace (Py.endswith u "/") with true
        by (symmetry; repeat apply endswith_cons; apply endswith_app)
  end.

(** Case on the value the metadata gives a placeholder: a safe value,
    or none and the [KeyError]. *)
Ltac field md Hsafe :=
  match goal with
  | |- context [Py.kwarg ?n md] =>
      let v := fresh "v" in let Hk := fresh "Hk" in
      let t := fresh "t" in let Hr := fresh "Hr" in let Hc := fresh "Hc" in
      destruct (Py.kwarg n md) as [v|] eqn:Hk;
      [ destruct (Hsafe _ _ Hk) as (t & Hr & Hc); rewrite Hr; clear Hr;
        cbn [Py.bind]
      | cbn; first [exact Hk | reflexivity] ]
  end.

(** A formatted path is relative and none of its components is [..]. *)
Ltac inside :=
  cbn [lands_inside]; unfold Path.valid_relative;
  apply andb_true_iff; split;
  [ first [ reflexivity | rewrite isabs_component by assumption; reflexivity ]
  | apply stays_inside_no_parent;
    repeat first [ rewrite split_app by (eapply component_inv; eassumption)
                 | progress simpl ];
    repeat constructor;
    first [ discriminate | eapply component_inv; eassumption ] ].

(** Out of the lookup and the rendering, the text a field was given. *)
Ltac unfold_text md name Ht :=
  let v := fresh "v" in let Hk := fresh "Hk" in let Hr := fresh "Hr" in
  pose proof Ht as Hr; unfold Py.field_text in Hr;
  destruct (Py.kwarg name md) as [v|] eqn:Hk; [|discriminate Hr];
  destruct (Py.render v) as [?t|] eqn:?; [|discriminate Hr];
  injection Hr as ->.

(** Take the text the metadata gives the field [name], which the
    hypothesis [Hb] says it gives. *)
Ltac bound md Hb name :=
  let text := fresh "text" in let Ht := fresh "Ht" in
  let H := fresh in
  pose proof (Hb name) as H; lapply H;
  [ clear H; intros (text & Ht); unfold_text md name Ht
  | vm_compute; repeat constructor ].

Ltac bound_component md Hb name :=
  let text := fresh "text" in let Ht := fresh "Ht" in
  let Hc := fresh "Hc" in let H := fresh in
  pose proof (Hb name) as H; lapply H;
  [ clear H; intros (text & Ht & Hc); unfold_text md name Ht
  | vm_compute; repeat constructor ].

(** The text of a field is the text found before. *)
Ltac same_text :=
  match goal with
  | Ht : Py.field_text ?md ?n = Py.Ok ?t,
    H : Py.field_text ?md ?n = Py.Ok ?t' |- _ =>
      rewrite Ht in H; injection H as <-
  end.

(** The components of a formatted path. *)
Ltac components :=
  repeat first [ rewrite split_app by (eapply component_inv; eassumption)
               | progress simpl ].

(** Evaluate the parse of every template formatted by given texts. *)
Ltac run_parse_by :=
  unfold Py.format_by;
  repeat match goal with
  | |- context [Py.parse ?t] =>
      let r := eval vm_compute in (Py.parse t) in change (Py.parse t) with r
  end;
  cbn [Py.bind Py.substitute_by].

(** Take the text given to the field [name]. *)
Ltac given Hf name :=
  let text := fresh "text" in let Ht := fresh "Ht" in let H := fresh in
  pose proof (Hf name) as H; lapply H;
  [ clear H; intros (text & Ht) | vm_compute; repeat constructor ].

(** ** Formatting the templates of the configuration *)

Section Formatting.

Import Py Path Conf.

Lemma url_templates :
  url_template <$> kinds =
  [ Some ARTICLE_URL; Some PAGE_URL; Some TAG_URL;
    Some AUTHOR_URL; Some CATEGORY_URL; None ].
Proof. vm_compute. reflexivity. Qed.

Lemma save_as_templates :
  save_as_template <$> kinds =
  [ Some ARTICLE_SAVE_AS; Some PAGE_SAVE_AS; Some TAG_SAVE_AS;
    Some AUTHOR_SAVE_AS; Some CATEGORY_SAVE_AS; Some ARCHIVES_SAVE_AS ].
Proof. vm_compute. reflexivity. Qed.

Lemma url_template_inv (k : kind) (u : string) :
  url_template k = Some u ->
  (k = Article /\ u = ARTICLE_URL) \/ (k = Page /\ u = PAGE_URL) \/
  (k = Tag /\ u = TAG_URL) \/ (k = Author /\ u = AUTHOR_URL) \/
  (k = Category /\ u = CATEGORY_URL).
Proof.
  destruct k; intros H; vm_compute in H;
    first [discriminate H | injection H as <-]; tauto.
Qed.

Lemma save_as_template_inv (k : kind) (s : string) :
  save_as_template k = Some s ->
  s = match k with
      | Article => ARTICLE_SAVE_AS
      | Page => PAGE_SAVE_AS
      | Tag => TAG_SAVE_AS
      | Author => AUTHOR_SAVE_AS
      | Category => CATEGORY_SAVE_AS
      | ArchiveIndex => ARCHIVES_SAVE_AS
      end.
Proof.
  destruct k; intros H; vm_compute in H; injection H as <-; reflexivity.
Qed.

(** For every kind with both templates and every metadata whatsoever,
    the two templates format to a URL and its save path, or fail alike:
    metadata that leaves the placeholder out raises the same [KeyError]
    from both. *)
Lemma templates_agree_or_fail_alike (k : kind) (u s : string) (md : kwargs) :
  url_template k = Some u ->
  save_as_template k = Some s ->
  dual_on md u s.
Proof.
  intros Hu Hs. apply save_as_template_inv in Hs as ->.
  apply url_template_inv in Hu as [[-> ->]|[[-> ->]|[[-> ->]|[[-> ->]|[-> ->]]]]];
    unfold dual_on; run_parse; try reflexivity;
    (destruct (kwarg "slug" md) as [v|]; [|reflexivity]);
    (destruct (render v) as [t|]; [|reflexivity]);
    cbn [bind]; unfold save_path_of_url; directory_url;
    rewrite ?app_cons, app_assoc; reflexivity.
Qed.

(** C1. For every content kind whose URL template and save-path template
    are both defined, substituting metadata that gives the placeholders
    of the URL template a text into both templates yields a URL and
    yields a save path, and the save path is the URL followed by
    [index.html] when the URL ends in a slash, the URL itself
    otherwise.  The URL holds the text of each placeholder. *)
Theorem url_save_as_duality (k : kind) (u s : string) (md : kwargs) :
  url_template k = Some u ->
  save_as_template k = Some s ->
  binds md u ->
  exists url,
    format u md = Ok url /\
    format s md = Ok (save_path_of_url url) /\
    forall name text, name ∈ placeholders u ->
      field_text md name = Ok text -> contains url text = true.
Proof.
  intros Hu Hs Hb. apply save_as_template_inv in Hs as ->.
  apply url_template_inv in Hu as [[-> ->]|[[-> ->]|[[-> ->]|[[-> ->]|[-> ->]]]]];
    try (exists ""; split; [reflexivity|]; split; [reflexivity|];
         intros name text Hin; vm_compute in Hin; apply elem_of_nil in Hin;
         contradiction);
    bound md Hb "slug"; run_parse; rewrite Hk; cbn [render bind];
    match goal with H : render _ = Some _ |- _ => rewrite H end; cbn [bind];
    eexists; (split; [reflexivity|]); (split;
    [ unfold save_path_of_url; directory_url; rewrite ?app_cons, app_assoc;
      reflexivity
    | intros name text' Hin Ht'; vm_compute in Hin;
      apply list_elem_of_singleton in Hin as ->; same_text;
      repeat apply contains_cons; apply contains_prefix ]).
Qed.

Lemma slug_bound : binds [("slug", VStr "hello-world")] TAG_URL.
Proof.
  intros name Hin. vm_compute in Hin. apply list_elem_of_singleton in Hin as ->.
  exists "hello-world". reflexivity.
Defined.

Lemma url_save_as_duality_witness :
  url_template Tag = Some TAG_URL /\
  save_as_template Tag = Some TAG_SAVE_AS /\
  binds [("slug", VStr "hello-world")] TAG_URL /\
  format TAG_URL [("slug", VStr "hello-world")] = Ok "tag/hello-world/" /\
  format TAG_SAVE_AS [("slug", VStr "hello-world")]
    = Ok "tag/hello-world/index.html" /\
  contains "tag/hello-world/" "hello-world" = true.
Proof.
  assert (Hu : url_template Tag = Some TAG_URL) by (vm_compute; reflexivity).
  assert (Hs : save_as_template Tag = Some TAG_SAVE_AS) by (vm_compute; reflexivity).
  destruct (url_save_as_duality Tag TAG_URL TAG_SAVE_AS _ Hu Hs slug_bound)
    as (url & Hurl & Hpath & Htext).
  assert (E : url = "tag/hello-world/") by (injection Hurl as <-; reflexivity).
  subst url.
  split; [exact Hu|]. split; [exact Hs|].
  split; [exact slug_bound|]. split; [exact Hurl|]. split; [exact Hpath|].
  apply (Htext "slug" "hello-world"); [vm_compute; repeat constructor|reflexivity].
Defined.

(** A slug that is [None] is text like any other: the URL of the
    article is then [None/]. *)
Lemma none_slug :
  format ARTICLE_URL [("slug", VNone)] = Ok "None/" /\
  format ARTICLE_SAVE_AS [("slug", VNone)] = Ok "None/index.html".
Proof. split; reflexivity. Qed.

Lemma routing_pairs_eq :
  routing_pairs =
  [ (ARTICLE_URL, ARTICLE_SAVE_AS); (PAGE_URL, PAGE_SAVE_AS);
    (TAG_URL, TAG_SAVE_AS); (AUTHOR_URL, AUTHOR_SAVE_AS);
    (CATEGORY_URL, CATEGORY_SAVE_AS);
    ("{base_name}/", "{base_name}/index.html");
    ("{base_name}/page/{number}/", "{base_name}/page/{number}/index.html") ].
Proof. vm_compute. reflexivity. Qed.

(** C6. For every routing template pair of the configuration and every
    metadata that gives the placeholders of the save-path template
    texts that are non-empty, hold no path separator and are not the
    parent directory, substituting yields a save path, and that path is
    a valid relative path: not absolute and never above the output
    root.  Each of the texts is a component of the path.  What else the
    metadata binds is of no account. *)
Theorem save_path_valid_relative (md : kwargs) (u s : string) :
  (u, s) ∈ routing_pairs ->
  binds_components md s ->
  exists path,
    format s md = Ok path /\
    valid_relative path = true /\
    forall name text, name ∈ placeholders s ->
      field_text md name = Ok text -> text ∈ split "/" path.
Proof.
  intros Hin Hb. rewrite routing_pairs_eq in Hin.
  repeat (apply elem_of_cons in Hin as [Hin|Hin]; [injection Hin as -> ->|]);
    [..|apply elem_of_nil in Hin; contradiction].
  1-3: bound_component md Hb "slug".
  6: bound_component md Hb "base_name".
  7: bound_component md Hb "base_name"; bound_component md Hb "number".
  all: run_parse;
    repeat match goal with
           | H : kwarg _ _ = Some _ |- _ => rewrite H
           | H : render _ = Some _ |- _ => rewrite H
           end; cbn [render bind];
    eexists; (split; [reflexivity|]); (split; [inside|]);
    intros name text' Hin Ht'; vm_compute in Hin;
    repeat (apply elem_of_cons in Hin as [->|Hin]);
    try (apply elem_of_nil in Hin; contradiction);
    same_text; components; repeat constructor.
Qed.

Lemma slug_metadata_safe : safe_metadata [("slug", VStr "hello-world")].
Proof.
  intros name v. cbn [kwarg].
  destruct (String.eqb "slug" name); [|discriminate].
  intros [= <-]. exists "hello-world". split; reflexivity.
Defined.

Lemma slug_component : binds_components [("slug", VStr "hello-world")] TAG_SAVE_AS.
Proof.
  intros name Hin. vm_compute in Hin. apply list_elem_of_singleton in Hin as ->.
  exists "hello-world". split; reflexivity.
Defined.

Lemma save_path_valid_relative_witness :
  (TAG_URL, TAG_SAVE_AS) ∈ routing_pairs /\
  binds_components [("slug", VStr "hello-world")] TAG_SAVE_AS /\
  format TAG_SAVE_AS [("slug", VStr "hello-world")]
    = Ok "tag/hello-world/index.html" /\
  valid_relative "tag/hello-world/index.html" = true /\
  "hello-world" ∈ split "/" "tag/hello-world/index.html".
Proof.
  assert (Hin : (TAG_URL, TAG_SAVE_AS) ∈ routing_pairs)
    by (rewrite routing_pairs_eq; repeat constructor).
  destruct (save_path_valid_relative _ TAG_URL TAG_SAVE_AS Hin slug_component)
    as (path & Hpath & Hvalid & Htext).
  assert (E : path = "tag/hello-world/index.html")
    by (injection Hpath as <-; reflexivity).
  subst path.
  split; [exact Hin|]. split; [exact slug_component|]. split; [exact Hpath|].
  split; [exact Hvalid|].
  apply (Htext "slug" "hello-world"); [vm_compute; repeat constructor|reflexivity].
Defined.

(** Only the placeholders count: a date with separators in it, beside a
    slug that is a component, is metadata the theorem covers, though
    not every value of it is a component. *)
Lemma other_values_are_free :
  binds_components [("slug", VStr "hello-world"); ("date", VStr "2014/01/05")]
    TAG_SAVE_AS /\
  ~ safe_metadata [("slug", VStr "hello-world"); ("date", VStr "2014/01/05")].
Proof.
  split.
  - intros name Hin. vm_compute in Hin. apply list_elem_of_singleton in Hin as ->.
    exists "hello-world". split; reflexivity.
  - intros H. destruct (H "date" (VStr "2014/01/05") eq_refl) as (t & [= <-] & Hc).
    discriminate Hc.
Qed.

(** The condition on the texts is needed: an empty slug gives an
    absolute save path. *)
Lemma empty_slug_is_absolute :
  format ARTICLE_SAVE_AS [("slug", VStr "")] = Ok "/index.html" /\
  Path.valid_relative "/index.html" = false.
Proof. split; reflexivity. Qed.

End Formatting.

(** ** Pagination *)

Section Pagination.

Import Py Path Conf.

Lemma pattern_inv (p : pattern) :
  p ∈ PAGINATION_PATTERNS ->
  p = Pattern 1 "{base_name}/" "{base_name}/index.html" \/
  p = Pattern 2 "{base_name}/page/{number}/" "{base_name}/page/{number}/index.html".
Proof.
  unfold PAGINATION_PATTERNS. intros H.
  apply elem_of_cons in H as [->|H]; [left; reflexivity|].
  apply elem_of_cons in H as [->|H]; [right; reflexivity|].
  apply elem_of_nil in H. contradiction.
Qed.

Lemma first_row : Pattern 1 "{base_name}/" "{base_name}/index.html" ∈ PAGINATION_PATTERNS.
Proof. unfold PAGINATION_PATTERNS. repeat constructor. Qed.

Lemma second_row :
  Pattern 2 "{base_name}/page/{number}/" "{base_name}/page/{number}/index.html"
  ∈ PAGINATION_PATTERNS.
Proof. unfold PAGINATION_PATTERNS. repeat constructor. Qed.

(** C2. For every base name, the pagination row of page index 1 formats
    to the unpaginated URL and save path of that base: [base/] and
    [base/index.html]. *)
Theorem page_one_is_canonical (p : pattern) (md : kwargs) (b : string) :
  p ∈ PAGINATION_PATTERNS ->
  page_index p = 1 ->
  kwarg "base_name" md = Some (VStr b) ->
  format (URL p) md = Ok (b +:+ "/") /\
  format (SAVE_AS p) md = Ok (b +:+ "/index.html").
Proof.
  intros Hin H1 Hb.
  apply pattern_inv in Hin as [->| ->]; [|discriminate H1].
  cbn [URL SAVE_AS]. run_parse. rewrite Hb. cbn [render bind].
  split; reflexivity.
Qed.

Lemma page_one_is_canonical_witness :
  Pattern 1 "{base_name}/" "{base_name}/index.html" ∈ PAGINATION_PATTERNS /\
  format "{base_name}/" (page_metadata "tag/rocq" 1) = Ok "tag/rocq/" /\
  format "{base_name}/index.html" (page_metadata "tag/rocq" 1)
    = Ok "tag/rocq/index.html".
Proof.
  split; [exact first_row|].
  exact (page_one_is_canonical _ (page_metadata "tag/rocq" 1) "tag/rocq"
           first_row eq_refl eq_refl).
Defined.

(** Page 1 of a listing is the listing itself: when a kind's URL for a
    slug is the directory [b/], the row of page 1 at base name [b]
    formats to that URL and to the kind's save path. *)
Lemma page_one_agrees_with_kind (k : kind) (u s slug b : string) (n : Z) :
  url_template k = Some u ->
  save_as_template k = Some s ->
  format u [("slug", VStr slug)] = Ok (b +:+ "/") ->
  format "{base_name}/" (page_metadata b n) = format u [("slug", VStr slug)] /\
  format "{base_name}/index.html" (page_metadata b n)
    = format s [("slug", VStr slug)].
Proof.
  intros Hu Hs. apply save_as_template_inv in Hs as ->.
  apply url_template_inv in Hu as [[-> ->]|[[-> ->]|[[-> ->]|[[-> ->]|[-> ->]]]]];
    intros Hb; rewrite Hb; revert Hb; unfold page_metadata; run_parse;
    cbn [kwarg String.eqb Ascii.eqb Bool.eqb render bind]; intros [= Hb];
    try (destruct b; discriminate Hb).
  - apply app_char_inv in Hb as ->. split; reflexivity.
  - apply app_char_inv in Hb as ->. split; reflexivity.
  - apply (app_char_inv ("tag/" +:+ slug) b) in Hb as <-. split; reflexivity.
Qed.

(** C3. The pagination table has two rows; the row selected for a page
    is the first one whose rule holds; page 1 selects the row of the
    unpaginated URL and save path, and every page from 2 on selects the
    row whose URL and save path have the page number placeholder. *)
Theorem pagination_rule_selection :
  length PAGINATION_PATTERNS = 2%nat /\
  (forall n p, select n = Some p ->
     exists i, PAGINATION_PATTERNS !! i = Some p /\ rule_holds p n = true /\
       forall j q, PAGINATION_PATTERNS !! j = Some q -> (j < i)%nat ->
         rule_holds q n = false) /\
  (exists p, select 1 = Some p /\ page_index p = 1 /\
     placeholders (URL p) = ["base_name"] /\
     placeholders (SAVE_AS p) = ["base_name"]) /\
  (forall n, 2 <= n ->
     exists p, select n = Some p /\ page_index p = 2 /\
       "number" ∈ placeholders (URL p) /\
       "number" ∈ placeholders (SAVE_AS p)).
Proof.
  split; [reflexivity|]. split; [|split].
  - intros n p H. unfold select in H.
    destruct (list_find _ _) as [[i q]|] eqn:E; [|discriminate].
    injection H as <-. apply list_find_Some in E as (Hi & Hq & Hfirst).
    exists i. split; [exact Hi|]. split; [exact Hq|].
    intros j r Hj Hlt. apply not_true_is_false. exact (Hfirst j r Hj Hlt).
  - eexists. split; [reflexivity|]. repeat split.
  - intros n Hn.
    exists (Pattern 2 "{base_name}/page/{number}/" "{base_name}/page/{number}/index.html").
    split.
    + unfold select, PAGINATION_PATTERNS. cbn [list_find].
      unfold rule_holds. cbn [page_index].
      change (1 =? 1) with true. change (2 =? 1) with false. cbn iota.
      rewrite decide_False by (rewrite Z.eqb_eq; lia).
      rewrite decide_True by (apply Z.leb_le; lia).
      reflexivity.
    + split; [reflexivity|].
      split; vm_compute; repeat constructor.
Qed.

Lemma pagination_rule_selection_witness :
  2 <= 7 /\
  exists p, select 7 = Some p /\ page_index p = 2 /\
    "number" ∈ placeholders (URL p) /\ "number" ∈ placeholders (SAVE_AS p).
Proof.
  assert (H : 2 <= 7) by discriminate.
  split; [exact H|].
  exact (proj2 (proj2 (proj2 pagination_rule_selection)) 7 H).
Defined.

(** C4. For every page number from 2 to 10 and every base name, the row
    for the pages from 2 on formats to a URL and a save path that
    contain the decimal page number and differ from those of page 1. *)
Theorem later_pages_carry_number (p p1 : pattern) (b : string) (N : Z) :
  p ∈ PAGINATION_PATTERNS -> 2 <= page_index p ->
  p1 ∈ PAGINATION_PATTERNS -> page_index p1 = 1 ->
  2 <= N <= 10 ->
  numbered_apart N (format (URL p) (page_metadata b N))
                   (format (URL p1) (page_metadata b N)) /\
  numbered_apart N (format (SAVE_AS p) (page_metadata b N))
                   (format (SAVE_AS p1) (page_metadata b N)).
Proof.
  intros Hin H2 Hin1 H1 _.
  apply pattern_inv in Hin as [->| ->]; [cbn in H2; lia|].
  apply pattern_inv in Hin1 as [->| ->]; [|discriminate H1].
  cbn [URL SAVE_AS]. unfold numbered_apart, page_metadata. run_parse.
  cbn [kwarg String.eqb Ascii.eqb Bool.eqb render bind].
  split; (split;
    [ apply contains_skip; repeat apply contains_cons; apply contains_prefix
    | intros H; apply app_inv_head in H; discriminate H ]).
Qed.

Lemma later_pages_carry_number_witness :
  2 <= 3 <= 10 /\
  numbered_apart 3
    (format "{base_name}/page/{number}/" (page_metadata "blog" 3))
    (format "{base_name}/" (page_metadata "blog" 3)) /\
  numbered_apart 3
    (format "{base_name}/page/{number}/index.html" (page_metadata "blog" 3))
    (format "{base_name}/index.html" (page_metadata "blog" 3)).
Proof.
  assert (H : 2 <= 3 <= 10) by (split; discriminate).
  assert (H2 : 2 <= 2) by discriminate.
  split; [exact H|].
  exact (later_pages_carry_number _ _ "blog" 3 second_row H2 first_row eq_refl H).
Defined.

(** C8. Both pagination rows are dual as the content kinds are: the URL
    template ends in a slash and the save-path template is the URL
    template followed by [index.html]. *)
Theorem pagination_rows_dual :
  Forall (fun p => endswith (URL p) "/" = true /\
                   SAVE_AS p = URL p +:+ "index.html")
         PAGINATION_PATTERNS.
Proof. unfold PAGINATION_PATTERNS. repeat constructor. Qed.

(** On every page from 1 on, the selection agrees with the reading of
    the page index as a least page, the last applicable row winning. *)
Lemma select_agrees_with_select_last (n : Z) :
  1 <= n -> select n = select_last n.
Proof.
  intros Hn. unfold select, select_last, PAGINATION_PATTERNS.
  cbn [list_find filter list_filter]. unfold rule_holds, applies_from.
  cbn [page_index]. change (1 =? 1) with true. change (2 =? 1) with false.
  cbn iota.
  rewrite (decide_True (P := (1 <=? n) = true)) by (apply Z.leb_le; lia).
  destruct (Z.eq_dec n 1) as [->|Hne].
  - reflexivity.
  - rewrite decide_False by (rewrite Z.eqb_eq; lia).
    rewrite !decide_True by (apply Z.leb_le; lia).
    reflexivity.
Qed.

(** On that reading the order of the rows matters: taking the first
    applicable row instead would give page 2 the row of page 1. *)
Lemma first_applicable_row_of_page_two :
  snd <$> list_find (fun p => applies_from p 2 = true) PAGINATION_PATTERNS
  = Some (Pattern 1 "{base_name}/" "{base_name}/index.html").
Proof. reflexivity. Qed.

End Pagination.

(** ** The settings as a whole *)

Section Settings.

Import Py Path Conf.

(** C5. Every feed setting is the disabled sentinel [None], and [None]
    is not the empty string: a disabled feed is told apart from a feed
    whose path is empty.  (Both are false as truth values.) *)
Theorem feeds_disabled :
  [ FEED_ALL_ATOM; CATEGORY_FEED_ATOM; TRANSLATION_FEED_ATOM;
    AUTHOR_FEED_ATOM; AUTHOR_FEED_RSS ] = replicate 5 None /\
  Forall (fun name => namespace !! name = Some VNone) feed_settings /\
  of_feed None <> of_feed (Some "") /\
  truthy (of_feed None) = false.
Proof.
  split; [reflexivity|]. split.
  - unfold feed_settings. repeat constructor; vm_compute; reflexivity.
  - split; [discriminate|reflexivity].
Qed.

(** C7 fails for the archive index: the module binds no URL template
    for it. *)
Lemma archive_index_lacks_url_template :
  namespace !! url_setting ArchiveIndex = None /\
  ~ (forall k, k ∈ kinds -> has_both k = true).
Proof.
  split; [vm_compute; reflexivity|].
  intros H. specialize (H ArchiveIndex).
  assert (Hin : ArchiveIndex ∈ kinds) by (unfold kinds; repeat constructor).
  apply H in Hin. vm_compute in Hin. discriminate Hin.
Qed.

(** C7, amended. Article, page, tag, author and category each have a URL
    template and a save-path template; the archive index has a
    save-path template only, and no setting of the module that ends in
    [_URL] is left over that could be its URL template. *)
Theorem kinds_with_both_templates :
  filter (fun k => has_both k = true) kinds
    = [ Article; Page; Tag; Author; Category ] /\
  defined (save_as_setting ArchiveIndex) = true /\
  defined (url_setting ArchiveIndex) = false /\
  settings_ending "_URL"
    = [ "ARTICLE_URL"; "PAGE_URL"; "TAG_URL"; "AUTHOR_URL"; "CATEGORY_URL" ].
Proof. repeat split; vm_compute; reflexivity. Qed.

(** C9. [DATE_FORMATS] has an entry for the default language. *)
Theorem default_lang_has_date_format :
  DATE_FORMATS !! DEFAULT_LANG = Some "%Y-%m-%d".
Proof. unfold DATE_FORMATS, DEFAULT_LANG. apply lookup_singleton_eq. Qed.

(** C10. Every file [EXTRA_PATH_METADATA] renames is a [STATIC_PATHS]
    entry or lies under one; the named groups of [FILENAME_METADATA]
    are [date] and [slug], and the article, page and tag templates use
    the placeholder [slug] alone. *)
Theorem renames_copied_and_placeholders_named :
  dom EXTRA_PATH_METADATA = {[ "images/favicon.png"; "extra/CNAME" ]} /\
  map_Forall (fun file _ => copied file = true) EXTRA_PATH_METADATA /\
  Re.groupindex FILENAME_METADATA = [ "date"; "slug" ] /\
  Forall (fun t => placeholders t = [ "slug" ] /\
                   placeholders t ⊆ Re.groupindex FILENAME_METADATA)
         [ ARTICLE_URL; ARTICLE_SAVE_AS; PAGE_URL; PAGE_SAVE_AS;
           TAG_URL; TAG_SAVE_AS ].
Proof.
  split; [|split; [|split]].
  - unfold EXTRA_PATH_METADATA. rewrite dom_insert_L, dom_singleton_L.
    reflexivity.
  - unfold EXTRA_PATH_METADATA.
    apply map_Forall_insert_2; [reflexivity|].
    apply map_Forall_singleton. reflexivity.
  - reflexivity.
  - assert (Hsub : ["slug"] ⊆ Re.groupindex FILENAME_METADATA).
    { intros x Hx. apply list_elem_of_singleton in Hx as ->.
      change (Re.groupindex FILENAME_METADATA) with ["date"; "slug"].
      repeat constructor. }
    repeat (apply Forall_cons_2; [split; [reflexivity|exact Hsub]|]).
    apply Forall_nil_2.
Qed.

End Settings.

(** ** Feed settings *)

Section Namespace.

Import Py Path Conf.

Lemma foldl_assign_snoc (m : gmap string value) (l : list (string * value))
    (b : string * value) :
  foldl assign m (l ++ [b]) = <[ b.1 := b.2 ]> (foldl assign m l).
Proof. rewrite foldl_app. reflexivity. Qed.

(** A name the namespace holds was bound by a statement of the file. *)
Lemma foldl_assign_lookup_inv (l : list (string * value)) (m : gmap string value)
    (k : string) (v : value) :
  foldl assign m l !! k = Some v -> (k, v) ∈ l \/ m !! k = Some v.
Proof.
  induction l as [|b l IH] using rev_ind; intros H.
  - right. exact H.
  - rewrite foldl_assign_snoc in H.
    destruct (decide (b.1 = k)) as [Heq|Hne].
    + subst k. rewrite lookup_insert_eq in H. injection H as <-.
      left. apply elem_of_app. right. destruct b. apply list_elem_of_singleton.
      reflexivity.
    + rewrite lookup_insert_ne in H by exact Hne.
      destruct (IH H) as [Hin|Hm]; [left|right; exact Hm].
      apply elem_of_app. left. exact Hin.
Qed.

(** Every binding whose name mentions [FEED] is [None]. *)
Lemma feed_bindings_none :
  Forall (fun b : string * value => contains b.1 "FEED" = true -> b.2 = VNone)
         bindings.
Proof.
  unfold bindings.
  repeat (apply Forall_cons_2;
          [cbn [fst snd]; first [ reflexivity
                                | intros H; vm_compute in H; discriminate H ]|]).
  apply Forall_nil_2.
Qed.

(** X2. Feed generation is off altogether: every setting of the file
    whose name mentions [FEED] is [None]. *)
Theorem no_feed_enabled (name : string) (v : value) :
  namespace !! name = Some v ->
  contains name "FEED" = true ->
  v = VNone.
Proof.
  intros H Hfeed.
  apply foldl_assign_lookup_inv in H as [H|H].
  - pose proof feed_bindings_none as Hall.
    rewrite Forall_forall in Hall. exact (Hall (name, v) H Hfeed).
  - rewrite lookup_empty in H. discriminate H.
Qed.

Lemma no_feed_enabled_witness :
  namespace !! "AUTHOR_FEED_RSS" = Some VNone /\
  contains "AUTHOR_FEED_RSS" "FEED" = true /\
  VNone = VNone.
Proof.
  assert (H : namespace !! "AUTHOR_FEED_RSS" = Some VNone)
    by (vm_compute; reflexivity).
  assert (Hf : contains "AUTHOR_FEED_RSS" "FEED" = true) by reflexivity.
  split; [exact H|split; [exact Hf|]].
  exact (no_feed_enabled "AUTHOR_FEED_RSS" VNone H Hf).
Defined.

End Namespace.

(** ** More facts about strings *)

Section MoreStringFacts.

Import Py.

Lemma app_nil_r (a : string) : a +:+ "" = a.
Proof. induction a as [|x a IH]; rewrite ?app_cons, ?app_nil_l; congruence. Qed.

Lemma app_inv_tail (a b c : string) : a +:+ c = b +:+ c -> a = b.
Proof.
  revert a b. induction c as [|x c IH]; intros a b H.
  - rewrite !app_nil_r in H. exact H.
  - change (String x c) with (String x "" +:+ c) in H.
    rewrite <- !app_assoc in H. apply IH in H. apply app_char_inv in H. exact H.
Qed.

Lemma to_int_proper (z : Z) :
  Z.to_int z <> Decimal.Pos Decimal.Nil /\ Z.to_int z <> Decimal.Neg Decimal.Nil.
Proof.
  destruct z as [|p|p]; cbn; split; try discriminate; intros [= E];
    apply (DecimalPos.Unsigned.to_uint_nonnil p E).
Qed.

(** Different integers are written differently. *)
Lemma str_of_int_inj (n m : Z) : str_of_int n = str_of_int m -> n = m.
Proof.
  unfold str_of_int. intros H. apply DecimalZ.to_int_inj.
  pose proof (NilZero.isi (Z.to_int n) (proj1 (to_int_proper n))
                (proj2 (to_int_proper n))) as En.
  pose proof (NilZero.isi (Z.to_int m) (proj1 (to_int_proper m))
                (proj2 (to_int_proper m))) as Em.
  rewrite H in En. rewrite En in Em. injection Em as Em. exact Em.
Qed.

Lemma startswith_base (b r : string) :
  startswith (b +:+ String "/" r) (b +:+ "/") = true.
Proof.
  induction b as [|c b IH]; rewrite ?app_cons, ?app_nil_l.
  - destruct r; reflexivity.
  - cbn [startswith]. rewrite Ascii.eqb_refl. exact IH.
Qed.

Lemma endswith_skip (a s p : string) :
  endswith s p = true -> endswith (a +:+ s) p = true.
Proof.
  intros H. induction a as [|c a IH]; rewrite ?app_cons, ?app_nil_l.
  - exact H.
  - apply endswith_cons, IH.
Qed.

Lemma has_sep_app (a r : string) : has_char "/" (a +:+ String "/" r) = true.
Proof.
  induction a as [|c a IH]; rewrite ?app_cons, ?app_nil_l; cbn [has_char].
  - reflexivity.
  - rewrite IH. apply orb_true_r.
Qed.

End MoreStringFacts.

(** A path ends the way the goal says. *)
Ltac ends :=
  repeat first [ reflexivity | apply endswith_cons | apply endswith_skip ].

(** ** Pagination, further *)

Section MorePagination.

Import Py Path Conf.

(** X4. Every page of a listing stays in the directory of the listing:
    for both pagination rows, every base name and every page number,
    the URL and the save path start with [base/]. *)
Theorem pagination_stays_under_base (p : pattern) (b : string) (N : Z) :
  p ∈ PAGINATION_PATTERNS ->
  match format (URL p) (page_metadata b N),
        format (SAVE_AS p) (page_metadata b N) with
  | Ok u, Ok s =>
      startswith u (b +:+ "/") = true /\ startswith s (b +:+ "/") = true
  | _, _ => False
  end.
Proof.
  intros Hin. apply pattern_inv in Hin as [->| ->];
    cbn [URL SAVE_AS]; unfold page_metadata; run_parse;
    cbn [kwarg String.eqb Ascii.eqb Bool.eqb render bind];
    split; apply startswith_base.
Qed.

Lemma pagination_stays_under_base_witness :
  startswith "tag/rocq/page/3/" "tag/rocq/" = true /\
  startswith "tag/rocq/page/3/index.html" "tag/rocq/" = true.
Proof.
  exact (pagination_stays_under_base _ "tag/rocq" 3 second_row).
Defined.

(** X5. No two pages of a listing share a URL or a save path: the row
    for the pages from 2 on gives different page numbers different
    paths, and never the path the row of page 1 gives. *)
Theorem pages_never_share_a_path (p p1 : pattern) (b : string) (N M : Z) :
  p ∈ PAGINATION_PATTERNS -> 2 <= page_index p ->
  p1 ∈ PAGINATION_PATTERNS -> page_index p1 = 1 ->
  (N <> M ->
   format (URL p) (page_metadata b N) <> format (URL p) (page_metadata b M) /\
   format (SAVE_AS p) (page_metadata b N)
     <> format (SAVE_AS p) (page_metadata b M)) /\
  format (URL p) (page_metadata b N) <> format (URL p1) (page_metadata b M) /\
  format (SAVE_AS p) (page_metadata b N)
    <> format (SAVE_AS p1) (page_metadata b M).
Proof.
  intros Hin H2 Hin1 H1.
  apply pattern_inv in Hin as [->| ->]; [cbn in H2; lia|].
  apply pattern_inv in Hin1 as [->| ->]; [|discriminate H1].
  cbn [URL SAVE_AS]. unfold page_metadata. run_parse.
  cbn [kwarg String.eqb Ascii.eqb Bool.eqb render bind].
  split; [intros Hne; split|split]; intros [= H]; apply app_inv_head in H;
    try discriminate H.
  - injection H as H. apply app_inv_tail in H. apply Hne, str_of_int_inj, H.
  - injection H as H. apply app_inv_tail in H. apply Hne, str_of_int_inj, H.
Qed.

Lemma pages_never_share_a_path_witness :
  2 <> 3 /\
  (format "{base_name}/page/{number}/" (page_metadata "blog" 2)
     <> format "{base_name}/page/{number}/" (page_metadata "blog" 3) /\
   format "{base_name}/page/{number}/index.html" (page_metadata "blog" 2)
     <> format "{base_name}/page/{number}/index.html" (page_metadata "blog" 3)) /\
  format "{base_name}/page/{number}/" (page_metadata "blog" 2)
    <> format "{base_name}/" (page_metadata "blog" 3) /\
  format "{base_name}/page/{number}/index.html" (page_metadata "blog" 2)
    <> format "{base_name}/index.html" (page_metadata "blog" 3).
Proof.
  assert (H2 : 2 <= 2) by discriminate.
  assert (Hne : 2 <> 3) by discriminate.
  destruct (pages_never_share_a_path _ _ "blog" 2 3 second_row H2 first_row eq_refl)
    as [Hrow Hone].
  split; [exact Hne|]. split; [exact (Hrow Hne)|exact Hone].
Defined.

End MorePagination.

(** ** Routing, further *)

Section MoreRouting.

Import Py Path Conf.

(** X6. For every routing template pair and every metadata of safe
    values, the formatted URL is empty or a directory URL: it ends in a
    slash and is a valid relative path.  The only other outcome is the
    [KeyError] of a placeholder the metadata does not bind. *)
Theorem url_is_relative_directory (md : kwargs) (u s : string) :
  safe_metadata md ->
  (u, s) ∈ routing_pairs ->
  match format u md with
  | Ok url => url = "" \/ (endswith url "/" = true /\ valid_relative url = true)
  | Raise (KeyError name) => kwarg name md = None
  | Raise _ => False
  end.
Proof.
  intros Hsafe Hin. rewrite routing_pairs_eq in Hin.
  repeat (apply elem_of_cons in Hin as [Hin|Hin]; [injection Hin as -> ->|]);
    [..|apply elem_of_nil in Hin; contradiction];
    run_parse; repeat field md Hsafe; try (left; reflexivity);
    (right; split; [ends|inside]).
Qed.

Lemma tag_pair : (TAG_URL, TAG_SAVE_AS) ∈ routing_pairs.
Proof. rewrite routing_pairs_eq. repeat constructor. Qed.

Lemma url_is_relative_directory_witness :
  "tag/hello-world/" = "" \/
  (endswith "tag/hello-world/" "/" = true /\
   valid_relative "tag/hello-world/" = true).
Proof.
  exact (url_is_relative_directory _ TAG_URL TAG_SAVE_AS slug_metadata_safe tag_pair).
Defined.

Lemma save_templates_eq :
  save_templates =
  [ ARCHIVES_SAVE_AS; ARTICLE_SAVE_AS; PAGE_SAVE_AS; TAG_SAVE_AS; TAGS_SAVE_AS;
    AUTHOR_SAVE_AS; CATEGORY_SAVE_AS;
    "{base_name}/index.html"; "{base_name}/page/{number}/index.html" ].
Proof. vm_compute. reflexivity. Qed.

Lemma tag_save_template : TAG_SAVE_AS ∈ save_templates.
Proof. rewrite save_templates_eq. repeat constructor. Qed.

(** X7. Every save-path template of the module, the archive index and
    the disabled ones included, formats metadata of safe values to a
    valid relative path, or raises the [KeyError] of a placeholder that
    is not bound. *)
Theorem every_save_path_lands_inside (md : kwargs) (t : string) :
  safe_metadata md ->
  t ∈ save_templates ->
  lands_inside md (format t md).
Proof.
  intros Hsafe Hin. rewrite save_templates_eq in Hin.
  repeat (apply elem_of_cons in Hin as [->|Hin]);
    [..|apply elem_of_nil in Hin; contradiction];
    run_parse; repeat field md Hsafe; inside.
Qed.

Lemma every_save_path_lands_inside_witness :
  lands_inside [("slug", VStr "hello-world")] (Ok "tag/hello-world/index.html").
Proof.
  exact (every_save_path_lands_inside _ TAG_SAVE_AS slug_metadata_safe
           tag_save_template).
Defined.

Lemma substitute_is_substitute_by (md : kwargs) (ps : list piece) :
  substitute md ps = substitute_by (field_text md) ps.
Proof.
  induction ps as [|[c|name] ps IH]; cbn [substitute substitute_by].
  - reflexivity.
  - rewrite IH. reflexivity.
  - unfold field_text. destruct (kwarg name md) as [v|]; [|reflexivity].
    destruct (render v); [|reflexivity]. cbn [bind]. rewrite IH. reflexivity.
Qed.

(** Formatting metadata is formatting by the texts it gives. *)
Lemma format_is_format_by (md : kwargs) (t : string) :
  format t md = format_by (field_text md) t.
Proof.
  unfold format, format_by. destruct (parse t); [|reflexivity].
  apply substitute_is_substitute_by.
Qed.

(** Whatever text the placeholders are given, a save-path template
    formats, and to the empty path or to an [index.html] in a
    directory. *)
Lemma save_path_shape (text_of : string -> result string) (t : string) :
  t ∈ save_templates ->
  (forall name, name ∈ placeholders t -> exists text, text_of name = Ok text) ->
  exists out,
    format_by text_of t = Ok out /\
    (t = "" /\ out = "" \/
     endswith out "/index.html" = true /\ has_char "/" out = true).
Proof.
  intros Hin Hf. rewrite save_templates_eq in Hin.
  repeat (apply elem_of_cons in Hin as [->|Hin]);
    [..|apply elem_of_nil in Hin; contradiction].
  2-4: given Hf "slug".
  8: given Hf "base_name".
  9: given Hf "base_name"; given Hf "number".
  all: run_parse_by;
    repeat match goal with H : _ = Ok _ |- _ => rewrite H; clear H end;
    cbn [bind]; eexists; (split; [reflexivity|]);
    first [ left; split; reflexivity
          | right; split; [ends | first [reflexivity | apply has_sep_app]] ].
Qed.

(** The texts of a witness: every field formats to [None], as the
    object [None] does. *)
Lemma none_everywhere (t : string) (name : string) :
  name ∈ placeholders t ->
  exists text, (fun _ : string => Ok "None") name = Ok text.
Proof. intros _. exists "None". reflexivity. Defined.

(** X8. Every page is written as the [index.html] of a directory:
    whatever objects the metadata holds, that is whatever text each
    placeholder is given, every save-path template formats, and to a
    path that ends in [/index.html]; the templates that are empty
    format to the empty path, and nothing is written. *)
Theorem pages_saved_as_index_html (text_of : string -> result string)
    (t : string) :
  t ∈ save_templates ->
  (forall name, name ∈ placeholders t -> exists text, text_of name = Ok text) ->
  exists out,
    format_by text_of t = Ok out /\
    (t = "" /\ out = "" \/ endswith out "/index.html" = true).
Proof.
  intros Hin Hf. destruct (save_path_shape text_of t Hin Hf) as (out & Ho & Hs).
  exists out. split; [exact Ho|].
  destruct Hs as [Hs|[Hs _]]; [left|right]; exact Hs.
Qed.

Lemma pages_saved_as_index_html_witness :
  format_by (fun _ => Ok "None") TAG_SAVE_AS = Ok "tag/None/index.html" /\
  (TAG_SAVE_AS = "" /\ "tag/None/index.html" = "" \/
   endswith "tag/None/index.html" "/index.html" = true).
Proof.
  destruct (pages_saved_as_index_html (fun _ => Ok "None") TAG_SAVE_AS
              tag_save_template (none_everywhere TAG_SAVE_AS))
    as (out & Ho & Hs).
  assert (E : out = "tag/None/index.html") by (injection Ho as <-; reflexivity).
  subst out. split; [exact Ho|exact Hs].
Defined.

Lemma rename_targets_eq : rename_targets = [ "CNAME"; "favicon.png" ].
Proof. vm_compute. reflexivity. Qed.

Lemma favicon_target : "favicon.png" ∈ rename_targets.
Proof. rewrite rename_targets_eq. repeat constructor. Qed.

(** X9. No page overwrites a renamed static file: whatever text each
    placeholder is given, every save-path template formats, and never
    to an output path of a rename rule of [EXTRA_PATH_METADATA]. *)
Theorem renamed_files_not_overwritten (text_of : string -> result string)
    (t d : string) :
  t ∈ save_templates ->
  (forall name, name ∈ placeholders t -> exists text, text_of name = Ok text) ->
  d ∈ rename_targets ->
  exists out, format_by text_of t = Ok out /\ out <> d.
Proof.
  intros Hin Hf Hd. destruct (save_path_shape text_of t Hin Hf) as (out & Ho & Hs).
  exists out. split; [exact Ho|]. intros ->. rewrite rename_targets_eq in Hd.
  destruct Hs as [[_ ->]|[_ Hsep]].
  - repeat (apply elem_of_cons in Hd as [Hd|Hd]; [discriminate Hd|]).
    apply elem_of_nil in Hd. exact Hd.
  - repeat (apply elem_of_cons in Hd as [->|Hd]; [discriminate Hsep|]).
    apply elem_of_nil in Hd. exact Hd.
Qed.

Lemma renamed_files_not_overwritten_witness :
  format_by (fun _ => Ok "None") TAG_SAVE_AS = Ok "tag/None/index.html" /\
  "tag/None/index.html" <> "favicon.png".
Proof.
  destruct (renamed_files_not_overwritten (fun _ => Ok "None") TAG_SAVE_AS
              "favicon.png" tag_save_template (none_everywhere TAG_SAVE_AS)
              favicon_target)
    as (out & Ho & Hne).
  assert (E : out = "tag/None/index.html") by (injection Ho as <-; reflexivity).
  subst out. split; [exact Ho|exact Hne].
Defined.



(** X11. For a slug that is one path component, the save path of the
    article and [ARCHIVES_SAVE_AS] are the same path, once both are
    normalised, exactly when the slug is [archives]. *)
Theorem article_in_place_of_archives (s : string) :
  component s = true ->
  exists out,
    format ARTICLE_SAVE_AS [("slug", VStr s)] = Ok out /\
    (normal out = normal ARCHIVES_SAVE_AS <-> s = "archives").
Proof.
  intros Hc. run_parse. cbn [kwarg String.eqb Ascii.eqb Bool.eqb render bind].
  eexists. split; [reflexivity|].
  pose proof (component_inv s Hc) as (Hne & Hsep & Hdd).
  unfold normal. rewrite split_app by exact Hsep.
  change (split "/" "index.html") with ["index.html"].
  change (resolve (split "/" ARCHIVES_SAVE_AS) [])
    with (Some ["archives"; "index.html"]).
  cbn [resolve].
  destruct (String.eqb_spec s ""); [contradiction|].
  destruct (String.eqb_spec s ".") as [->|_]; cbn [orb].
  - cbn. split; [intros [=]|discriminate].
  - destruct (String.eqb_spec s ".."); [contradiction|].
    cbn. split; [intros [= ->]; reflexivity|intros ->; reflexivity].
Qed.

Lemma article_in_place_of_archives_witness :
  component "archives" = true /\
  format ARTICLE_SAVE_AS [("slug", VStr "archives")] = Ok "archives/index.html" /\
  (normal "archives/index.html" = normal ARCHIVES_SAVE_AS <-> "archives" = "archives").
Proof.
  destruct (article_in_place_of_archives "archives" eq_refl) as (out & Ho & Hs).
  assert (E : out = "archives/index.html") by (injection Ho as <-; reflexivity).
  subst out. split; [reflexivity|]. split; [exact Ho|exact Hs].
Defined.

(** Spelled otherwise, the same place: slugs that are no single
    component reach the archive index too, which is why the slug is
    taken to be one. *)
Lemma archives_by_other_spellings :
  normal "./archives/index.html" = normal ARCHIVES_SAVE_AS /\
  normal "archives//index.html" = normal ARCHIVES_SAVE_AS.
Proof. split; reflexivity. Qed.

End MoreRouting.

(** ** File names *)

Section FileNames.

Import Py Path Conf Re.

(** When every character of the text is taken and the rest of the match
    succeeds on it, the greedy [*] takes the whole text. *)
Lemma many_all (a : atom) (s : string)
    (k : string -> string -> option (gmap string string)) :
  all_chars (accepts a) s = true ->
  k s "" <> None ->
  many a s k = k s "".
Proof.
  revert k. induction s as [|c s IH]; intros k Hall Hk; cbn [many].
  - reflexivity.
  - cbn [all_chars] in Hall. apply andb_true_iff in Hall as [Hc Hs].
    rewrite Hc, (IH (fun m r => k (String c m) r) Hs Hk).
    destruct (k (String c s) "") eqn:E; [reflexivity|contradiction].
Qed.

Lemma filename_pattern :
  compile FILENAME_METADATA
  = Some [ Named "date" [ Times Digit 4; One (Chr "-"); Times Digit 2;
                          One (Chr "-"); Times Digit 2 ];
           One (Chr "-"); Named "slug" [ Many Dot ] ].
Proof. vm_compute. reflexivity. Qed.

(** The compiled pattern has the groups the scan of the text finds. *)
Lemma filename_pattern_groups :
  (ns ← compile FILENAME_METADATA; Some (concat (names <$> ns)))
  = Some (groupindex FILENAME_METADATA).
Proof. vm_compute. reflexivity. Qed.

Lemma match_dated (d slug : string) :
  is_date d = true ->
  all_chars (accepts Dot) slug = true ->
  match_nodes
    [ Named "date" [ Times Digit 4; One (Chr "-"); Times Digit 2;
                     One (Chr "-"); Times Digit 2 ];
      One (Chr "-"); Named "slug" [ Many Dot ] ]
    (d +:+ "-" +:+ slug) ∅ (fun _ _ caps => Some caps)
  = Some {[ "date" := d; "slug" := slug ]}.
Proof.
  intros Hd Hs.
  destruct d as [|y1 [|y2 [|y3 [|y4 [|h1 [|m1 [|m2 [|h2 [|d1 [|d2 [|? ?]]]]]]]]]]];
    try discriminate Hd.
  cbn [is_date] in Hd.
  do 9 (apply andb_true_iff in Hd as [Hd ?]).
  repeat match goal with H : Ascii.eqb _ _ = true |- _ =>
    apply Ascii.eqb_eq in H; subst end.
  rewrite !app_cons, app_nil_l.
  cbn [match_nodes match_node times one accepts].
  repeat match goal with H : is_digit _ = true |- _ => rewrite H; clear H end.
  cbn [Ascii.eqb Bool.eqb]. rewrite !app_cons, !app_nil_l.
  rewrite many_all by (try exact Hs; discriminate).
  rewrite ?app_cons, ?app_nil_l, ?app_nil_r.
  apply (f_equal Some). apply insert_insert_ne. discriminate.
Qed.

Lemma sample_date : is_date "2014-01-05" = true.
Proof. reflexivity. Qed.

Lemma sample_slug : all_chars (accepts Dot) "hello-world" = true.
Proof. reflexivity. Qed.

(** X12. A file name that is a date [dddd-dd-dd], a hyphen and a slug
    without a line break matches [FILENAME_METADATA], and the groups of
    the match are that date and that slug, whole. *)
Theorem dated_filename (d slug : string) :
  is_date d = true ->
  all_chars (accepts Dot) slug = true ->
  groupdict FILENAME_METADATA (d +:+ "-" +:+ slug)
  = Ok (Some {[ "date" := d; "slug" := slug ]}).
Proof.
  intros Hd Hs. unfold groupdict. rewrite filename_pattern.
  rewrite (match_dated d slug Hd Hs). reflexivity.
Qed.

Lemma dated_filename_witness :
  groupdict FILENAME_METADATA "2014-01-05-hello-world"
  = Ok (Some {[ "date" := "2014-01-05"; "slug" := "hello-world" ]}).
Proof. exact (dated_filename "2014-01-05" "hello-world" sample_date sample_slug). Defined.

(** X13. A file name of ASCII characters that does not start with a
    date and a hyphen does not match: it gives no metadata.  (Only of
    ASCII characters, as among those the digits of [\d] are the ten of
    the model on every Python.) *)
Theorem undated_filename (s : string) :
  all_chars is_ascii s = true ->
  dated s = false ->
  groupdict FILENAME_METADATA s = Ok None.
Proof.
  intros _ H. unfold groupdict. rewrite filename_pattern. f_equal.
  destruct s as [|y1 [|y2 [|y3 [|y4 [|h1 [|m1 [|m2 [|h2 [|d1 [|d2 [|h3 rest]]]]]]]]]]];
    cbn [match_nodes match_node times one accepts];
    repeat match goal with
           | |- context [if ?b then _ else _] => destruct b eqn:?
           end; try reflexivity.
  exfalso. unfold dated in H. cbn in H.
  repeat match goal with
         | E : is_digit _ = true |- _ => rewrite E in H; clear E
         | E : Ascii.eqb "-" _ = true |- _ =>
             rewrite Ascii.eqb_sym in E; rewrite E in H; clear E
         end.
  discriminate H.
Qed.

Lemma undated_filename_witness :
  groupdict FILENAME_METADATA "about-this-site" = Ok None.
Proof. exact (undated_filename "about-this-site" eq_refl eq_refl). Defined.

Lemma kwarg_in (l : list (string * string)) (name text : string) :
  NoDup l.*1 -> (name, text) ∈ l ->
  kwarg name ((fun kv : string * string => (kv.1, VStr kv.2)) <$> l)
  = Some (VStr text).
Proof.
  induction l as [|[k t] l IH]; intros Hnd Hin.
  - apply elem_of_nil in Hin. contradiction.
  - cbn [fmap list_fmap kwarg fst snd]. cbn in Hnd.
    apply NoDup_cons in Hnd as [Hk Hnd].
    apply elem_of_cons in Hin as [[= <- <-]|Hin].
    + rewrite String.eqb_refl. reflexivity.
    + destruct (String.eqb_spec k name) as [->|_].
      * exfalso. apply Hk. apply list_elem_of_fmap. exists (name, text).
        split; [reflexivity|exact Hin].
      * apply IH; assumption.
Qed.

(** The metadata of a match binds each group to its text. *)
Lemma kwarg_metadata_of (caps : gmap string string) (name text : string) :
  caps !! name = Some text -> kwarg name (metadata_of caps) = Some (VStr text).
Proof.
  intros H. apply kwarg_in.
  - apply NoDup_fst_map_to_list.
  - apply elem_of_map_to_list. exact H.
Qed.

Lemma slug_of_dated (d slug : string) (caps : gmap string string) :
  is_date d = true ->
  all_chars (accepts Dot) slug = true ->
  groupdict FILENAME_METADATA (d +:+ "-" +:+ slug) = Ok (Some caps) ->
  kwarg "slug" (metadata_of caps) = Some (VStr slug).
Proof.
  intros Hd Hs H. unfold groupdict in H. rewrite filename_pattern in H.
  rewrite (match_dated d slug Hd Hs) in H. injection H as <-.
  apply kwarg_metadata_of. rewrite lookup_insert_ne by discriminate.
  apply lookup_singleton_eq.
Qed.

(** X14. From the file name to the output: an article whose file name
    is a date, a hyphen and a slug that is a path component is served
    at [slug/] and written to [slug/index.html], a valid relative
    path; the date of the file name is no part of either. *)
Theorem article_from_filename (d slug : string) (caps : gmap string string) :
  is_date d = true ->
  all_chars (accepts Dot) slug = true ->
  component slug = true ->
  groupdict FILENAME_METADATA (d +:+ "-" +:+ slug) = Ok (Some caps) ->
  format ARTICLE_URL (metadata_of caps) = Ok (slug +:+ "/") /\
  format ARTICLE_SAVE_AS (metadata_of caps) = Ok (slug +:+ "/index.html") /\
  valid_relative (slug +:+ "/index.html") = true.
Proof.
  intros Hd Hs Hc H. pose proof (slug_of_dated d slug caps Hd Hs H) as Hk.
  run_parse. rewrite Hk. cbn [render bind].
  split; [reflexivity|]. split; [reflexivity|]. inside.
Qed.

Lemma article_from_filename_witness :
  format ARTICLE_URL
    (metadata_of {[ "date" := "2014-01-05"; "slug" := "hello-world" ]})
    = Ok "hello-world/" /\
  format ARTICLE_SAVE_AS
    (metadata_of {[ "date" := "2014-01-05"; "slug" := "hello-world" ]})
    = Ok "hello-world/index.html" /\
  valid_relative "hello-world/index.html" = true.
Proof.
  assert (H : groupdict FILENAME_METADATA ("2014-01-05" +:+ "-" +:+ "hello-world")
              = Ok (Some {[ "date" := "2014-01-05"; "slug" := "hello-world" ]}))
    by (vm_compute; reflexivity).
  exact (article_from_filename "2014-01-05" "hello-world" _
           sample_date sample_slug eq_refl H).
Defined.

(** X15. A file name that is a date and a hyphen with nothing after
    them matches with the empty slug, and the article is then written
    to [/index.html], an absolute path. *)
Theorem dated_filename_without_slug (d : string) (caps : gmap string string) :
  is_date d = true ->
  groupdict FILENAME_METADATA (d +:+ "-") = Ok (Some caps) ->
  caps !! "slug" = Some "" /\
  format ARTICLE_SAVE_AS (metadata_of caps) = Ok "/index.html" /\
  valid_relative "/index.html" = false.
Proof.
  intros Hd H.
  assert (Hk : kwarg "slug" (metadata_of caps) = Some (VStr "")).
  { apply (slug_of_dated d "" caps Hd eq_refl). rewrite app_nil_r. exact H. }
  split.
  - unfold groupdict in H. rewrite filename_pattern in H.
    rewrite <- (app_nil_r (d +:+ "-")), app_assoc in H.
    rewrite (match_dated d "" Hd eq_refl) in H. injection H as <-.
    rewrite lookup_insert_ne by discriminate. apply lookup_singleton_eq.
  - run_parse. rewrite Hk. cbn [render bind]. split; reflexivity.
Qed.

Lemma dated_filename_without_slug_witness :
  ({[ "date" := "2014-01-05"; "slug" := "" ]} : gmap string string) !! "slug"
    = Some "" /\
  format ARTICLE_SAVE_AS (metadata_of {[ "date" := "2014-01-05"; "slug" := "" ]})
    = Ok "/index.html" /\
  valid_relative "/index.html" = false.
Proof.
  assert (H : groupdict FILENAME_METADATA ("2014-01-05" +:+ "-")
              = Ok (Some {[ "date" := "2014-01-05"; "slug" := "" ]}))
    by (vm_compute; reflexivity).
  exact (dated_filename_without_slug "2014-01-05" _ sample_date H).
Defined.

End FileNames.
